(** * mypv config flow: a shallow embedding of [custom_components/mypv/config_flow.py]

    The setup wizard ([MypvConfigFlow]) and the options editor
    ([MypvOptionsFlowHandler]) are Python methods that mutate the flow object
    ([self]), talk to the device through [requests.get] and may raise.  They
    are embedded as computations in a state-and-exception monad over the flow
    object; the device and the host platform's entry registry are read-only
    parameters, and every GET is recorded in a request log so that "no probe
    happened" is a statement about the log. *)

From stdpp Require Import base strings list gmap pretty.

Local Open Scope Z_scope.

#[local] Set Warnings "-register-all".

(** ** Python values *)

(** The values that cross the flow: parsed JSON bodies, form submissions and
    the contents of persisted entries.  JSON numbers are integers here (the
    flow never computes with a number, it only prints or stores it). *)
Inductive pyval : Type :=
  | VNone
  | VBool (b : bool)
  | VInt (z : Z)
  | VStr (s : string)
  | VList (l : list pyval)
  | VDict (d : list (string * pyval)).

(** A Python [dict] with [str] keys, in insertion order. *)
Abbreviation dict := (list (string * pyval)).

(** The binding of [k] in [d], if any. *)
Fixpoint dict_lookup {V : Type} (k : string) (d : list (string * V)) : option V :=
  match d with
  | [] => None
  | (k', v) :: d' => if decide (k = k') then Some v else dict_lookup k d'
  end.

(** [d[k] = v]: overwrite in place when [k] is bound, append otherwise. *)
Fixpoint dict_set {V : Type} (k : string) (v : V) (d : list (string * V))
  : list (string * V) :=
  match d with
  | [] => [(k, v)]
  | (k', v') :: d' =>
      if decide (k = k') then (k, v) :: d' else (k', v') :: dict_set k v d'
  end.

(** [d.get(k, default)]. *)
Definition dict_get {V : Type} (k : string) (dflt : V) (d : list (string * V)) : V :=
  match dict_lookup k d with
  | Some v => v
  | None => dflt
  end.

Definition sep_join (sep : string) (l : list string) : string :=
  match l with
  | [] => EmptyString
  | x :: xs => fold_left (fun acc y => acc +:+ sep +:+ y) xs x
  end.

(** [repr(v)].  A [str] is shown between single quotes; Python's escaping of
    quotes, backslashes and non-printable characters inside it is not
    reproduced. *)
Fixpoint py_repr (v : pyval) : string :=
  match v with
  | VNone => "None"
  | VBool true => "True"
  | VBool false => "False"
  | VInt z => pretty z
  | VStr s => "'" +:+ s +:+ "'"
  | VList l => "[" +:+ sep_join ", " (map py_repr l) +:+ "]"
  | VDict d =>
      "{" +:+ sep_join ", "
        (map (fun kv => "'" +:+ fst kv +:+ "': " +:+ py_repr (snd kv)) d) +:+ "}"
  end.

(** [str(v)], the conversion an f-string applies to [{v}]. *)
Definition py_str (v : pyval) : string :=
  match v with
  | VStr s => s
  | _ => py_repr v
  end.

(** [hash(v)] succeeds: lists and dicts are unhashable. *)
Definition py_hashable (v : pyval) : bool :=
  match v with
  | VList _ | VDict _ => false
  | _ => true
  end.

Definition py_num (v : pyval) : option Z :=
  match v with
  | VBool b => Some (if b then 1 else 0)
  | VInt z => Some z
  | _ => None
  end.

(** [a == b] on hashable values: [None] equals itself, strings compare as
    strings, and [bool] is a subclass of [int] ([True == 1]). *)
Definition py_eqb (a b : pyval) : bool :=
  match a, b with
  | VNone, VNone => true
  | VStr s, VStr t => bool_decide (s = t)
  | _, _ =>
      match py_num a, py_num b with
      | Some x, Some y => bool_decide (x = y)
      | _, _ => false
      end
  end.

(** ** Exceptions *)

(** The exception classes the flow can meet.  The first six are subclasses of
    [requests.exceptions.RequestException] ([RequestException] itself stands
    for any other subclass); [JSONDecodeError] is the one [Response.json]
    raises (a [RequestException] since requests 2.27). *)
Inductive exn : Type :=
  | ConnectTimeout
  | ReadTimeout
  | ConnectionError
  | HTTPError
  | JSONDecodeError
  | RequestException
  | KeyError (k : string)
  | TypeError
  | AttributeError.

Definition isinstance_RequestException (e : exn) : bool :=
  match e with
  | ConnectTimeout | ReadTimeout | ConnectionError | HTTPError
  | JSONDecodeError | RequestException => true
  | KeyError _ | TypeError | AttributeError => false
  end.

(** [except (ConnectTimeout, HTTPError)]. *)
Definition isinstance_ConnectTimeout_HTTPError (e : exn) : bool :=
  match e with
  | ConnectTimeout | HTTPError => true
  | _ => false
  end.

Inductive Res (A : Type) : Type :=
  | Ok (a : A)
  | Exc (e : exn).
Arguments Ok {A} a.
Arguments Exc {A} e.

(** ** The device *)

(** What [requests.get(url, timeout=10)] can end in before a response
    exists. *)
Inductive transport_failure : Type :=
  | ConnectTimedOut
  | ReadTimedOut
  | ConnectionFailed
  | OtherTransportFailure.

Definition exn_of_failure (f : transport_failure) : exn :=
  match f with
  | ConnectTimedOut => ConnectTimeout
  | ReadTimedOut => ReadTimeout
  | ConnectionFailed => ConnectionError
  | OtherTransportFailure => RequestException
  end.

(** A response: its status code and its body as JSON ([None] when the body
    is not valid JSON). *)
Record Response : Type := mkResponse {
  status_code : Z;
  body : option pyval;
}.

Inductive http_reply : Type :=
  | Failure (f : transport_failure)
  | Reply (r : Response).

(** ** The host platform's side *)

Definition CONF_HOST : string := "host".
Definition CONF_MONITORED_CONDITIONS : string := "monitored_conditions".

(** A persisted config entry of the integration's domain. *)
Record ConfigEntry : Type := mkConfigEntry {
  data : dict;
  options : dict;
}.

(** [hass]: [hass.config_entries.async_entries(DOMAIN)].  The flow's
    [_async_current_entries()] returns the same list: it only leaves out
    ignored entries, and the integration has no discovery step that could
    create one. *)
Record HomeAssistant : Type := mkHass {
  async_entries : list ConfigEntry;
}.

(** The Sensor Catalog: sensor-type identifier to label, in insertion order. *)
Abbreviation catalog := (list (string * string)).

Definition py_of_catalog (c : catalog) : pyval :=
  VDict (map (fun kv => (fst kv, VStr (snd kv))) c).

Definition py_of_strings (l : list string) : pyval := VList (map VStr l).

(** The [vol.Schema] handed to a form: its default and, for the two
    multi-selects, the offered options. *)
Inductive Schema : Type :=
  | UserSchema (default_host : pyval)
  | SensorsSchema (default_conditions : list string) (choices : catalog)
  | OptionsSchema (default_conditions : pyval) (choices : pyval).

(** What a step returns to the host runtime. *)
Inductive FlowResult : Type :=
  | ShowForm (step_id : string) (data_schema : Schema)
             (errors : option (gmap string string))
  | CreateEntry (title : string) (entry_data : dict)
  | Abort (reason : string).

(** ** The flow object and the monad *)

(** [MypvConfigFlow]'s attributes. *)
Record ConfigFlow : Type := mkConfigFlow {
  _errors : gmap string string;
  _info : pyval;
  _host : pyval;
  _filtered_sensor_types : catalog;
}.

(** [MypvConfigFlow.__init__]. *)
Definition ConfigFlow_init : ConfigFlow :=
  {| _errors := ∅; _info := VDict []; _host := VNone;
     _filtered_sensor_types := [] |}.

(** Assignments to one attribute: [self._errors[k] = v], [self._info = v],
    [self._host = v], [self._filtered_sensor_types = c]. *)
Definition with_error (k v : string) (f : ConfigFlow) : ConfigFlow :=
  {| _errors := <[k := v]> (_errors f); _info := _info f; _host := _host f;
     _filtered_sensor_types := _filtered_sensor_types f |}.

Definition with_info (v : pyval) (f : ConfigFlow) : ConfigFlow :=
  {| _errors := _errors f; _info := v; _host := _host f;
     _filtered_sensor_types := _filtered_sensor_types f |}.

Definition with_host (v : pyval) (f : ConfigFlow) : ConfigFlow :=
  {| _errors := _errors f; _info := _info f; _host := v;
     _filtered_sensor_types := _filtered_sensor_types f |}.

Definition with_filtered (c : catalog) (f : ConfigFlow) : ConfigFlow :=
  {| _errors := _errors f; _info := _info f; _host := _host f;
     _filtered_sensor_types := c |}.

(** The flow object together with the URLs fetched so far, oldest first. *)
Record World (O : Type) : Type := mkWorld {
  self : O;
  requests_log : list string;
}.
Arguments mkWorld {O} _ _.
Arguments self {O} _.
Arguments requests_log {O} _.

(** A method body: it may update the world and either returns or raises. *)
Definition M (O A : Type) : Type := World O → Res A * World O.

Definition ret {O A} (a : A) : M O A := λ w, (Ok a, w).

Definition raise {O A} (e : exn) : M O A := λ w, (Exc e, w).

Definition bind {O A B} (m : M O A) (k : A → M O B) : M O B :=
  λ w, match m w with
       | (Ok a, w') => k a w'
       | (Exc e, w') => (Exc e, w')
       end.

(** [try: body / except ...: handler]; a handler that answers [None] does not
    match the exception, which then propagates. *)
Definition try_except {O A} (body : M O A) (handler : exn → option (M O A))
  : M O A :=
  λ w, match body w with
       | (Ok a, w') => (Ok a, w')
       | (Exc e, w') =>
           match handler e with
           | Some h => h w'
           | None => (Exc e, w')
           end
       end.

Definition get_self {O} : M O O := λ w, (Ok (self w), w).

Definition update_self {O} (f : O → O) : M O unit :=
  λ w, (Ok tt, mkWorld (f (self w)) (requests_log w)).

(** The monad is used through stdpp's notations: [x ← m; k] and [m;; k]. *)
#[global] Instance M_ret {O} : MRet (M O) := λ A a, ret a.
#[global] Instance M_bind {O} : MBind (M O) := λ A B k m, bind m k.

(** [for x in l: body x]. *)
Fixpoint for_each {O A} (l : list A) (body : A → M O unit) : M O unit :=
  match l with
  | [] => ret tt
  | x :: l' => body x;; for_each l' body
  end.

(** [d[k]] on a dict: [KeyError] when [k] is unbound. *)
Definition getitem {O} (d : dict) (k : string) : M O pyval :=
  match dict_lookup k d with
  | Some v => ret v
  | None => raise (KeyError k)
  end.

(** [user_input[k]]: subscripting [None] is a [TypeError]. *)
Definition getitem_input {O} (user_input : option dict) (k : string) : M O pyval :=
  match user_input with
  | Some d => getitem d k
  | None => raise TypeError
  end.

(** ** Scenario data *)

(** Concrete tables, registries, devices and submissions on which the
    properties below are exercised.  [const.py] is not part of the sources,
    so [sample_SENSOR_TYPES] only stands for its table. *)
Module Scenario.

Definition sample_SENSOR_TYPES : list (string * (string * list pyval)) :=
  [("power1_solar", ("Solar power 1", [VStr "W"]));
   ("temp1", ("Temperature 1", [VStr "C"]));
   ("ctrlstate", ("Control state", [VNone]))].

Definition host : string := "192.168.1.50".

Definition no_entries : HomeAssistant := mkHass [].

(** An entry whose catalog has three keys and whose options select one. *)
Definition stored_entry : ConfigEntry :=
  mkConfigEntry
    [("host", VStr host);
     ("monitored_conditions", VList [VStr "temp1"]);
     ("_filtered_sensor_types",
      VDict [("power1_solar", VStr "Solar power 1");
             ("temp1", VStr "Temperature 1");
             ("ctrlstate", VStr "Control state")])]
    [("monitored_conditions", VList [VStr "temp1"])].

Definition one_entry : HomeAssistant := mkHass [stored_entry].

Definition identity : pyval :=
  VDict [("device", VStr "E3"); ("number", VStr "7")].

Definition readings : pyval :=
  VDict [("temp1", VInt 45); ("power1_solar", VInt 1500);
         ("unrelated", VInt 0)].

(** A device that answers [mypv_dev.jsn] with [dev] and [data.jsn] with
    [dat], and nothing else. *)
Definition device_with (dev dat : http_reply) : string → http_reply :=
  λ url,
    if bool_decide (url = "http://192.168.1.50/mypv_dev.jsn") then dev
    else if bool_decide (url = "http://192.168.1.50/data.jsn") then dat
    else Failure ConnectionFailed.

Definition ok (v : pyval) : http_reply := Reply (mkResponse 200 (Some v)).

Definition healthy_device : string → http_reply :=
  device_with (ok identity) (ok readings).

Definition host_input : dict := [("host", VStr host)].

Definition selection : pyval := VList [VStr "power1_solar"; VStr "temp1"].

Definition sensors_input : dict := [("monitored_conditions", selection)].

Definition import_input : dict :=
  [("host", VStr host); ("monitored_conditions", selection)].

Definition fresh : World ConfigFlow := mkWorld ConfigFlow_init [].

(** The data of the entry the wizard creates on [healthy_device] when both
    offered sensors are selected, and a registry holding that entry. *)
Definition created_data : dict :=
  [("host", VStr host);
   ("monitored_conditions", selection);
   ("_filtered_sensor_types",
    VDict [("power1_solar", VStr "Solar power 1");
           ("temp1", VStr "Temperature 1")])].


(** A second address, at which [device_with] answers nothing. *)
Definition other_host_input : dict := [("host", VStr "192.168.1.51")].

End Scenario.

(** ** The flows *)

Section Flows.

(** [SENSOR_TYPES] of [const.py]: every known sensor type with its
    description, a sequence whose element [0] is the label.  The table is a
    dict literal; an entry is kept here as the label and the remaining
    elements. *)
Variable SENSOR_TYPES : list (string * (string * list pyval)).

Variable hass : HomeAssistant.

(** The device behind [requests.get]: what a GET of a URL ends in. *)
Variable device : string → http_reply.

Definition DEFAULT_MONITORED_CONDITIONS : list string :=
  ["power1_solar"; "temp1"].

(** [requests.get(url, timeout=10)]. *)
Definition requests_get {O} (url : string) : M O Response :=
  λ w,
    let w' := mkWorld (self w) (requests_log w ++ [url]) in
    match device url with
    | Failure f => (Exc (exn_of_failure f), w')
    | Reply r => (Ok r, w')
    end.

(** [response.raise_for_status()]: [HTTPError] for a 4xx or 5xx status. *)
Definition raise_for_status {O} (response : Response) : M O unit :=
  if bool_decide (400 ≤ status_code response < 600)
  then raise HTTPError else ret tt.

(** [response.json()]. *)
Definition json {O} (response : Response) : M O pyval :=
  match body response with
  | Some v => ret v
  | None => raise JSONDecodeError
  end.

(** [mypv_entries(hass)]: the hosts of the domain's entries, as a set.
    Building the set hashes every host. *)
Fixpoint mypv_entries_of {O} (entries : list ConfigEntry) : M O (list pyval) :=
  match entries with
  | [] => ret []
  | entry :: rest =>
      h ← getitem (data entry) CONF_HOST;
      if py_hashable h
      then (hs ← mypv_entries_of rest; ret (h :: hs))
      else raise TypeError
  end.

Definition mypv_entries {O} : M O (list pyval) :=
  mypv_entries_of (async_entries hass).

(** [host in s] for a set [s]: the probe is hashed first. *)
Definition set_contains {O} (host : pyval) (s : list pyval) : M O bool :=
  if py_hashable host then ret (existsb (py_eqb host) s) else raise TypeError.

Definition _host_in_configuration_exists (host : pyval) : M ConfigFlow bool :=
  s ← mypv_entries; set_contains host s.

Definition set_error (k v : string) : M ConfigFlow unit :=
  update_self (with_error k v).

Definition set_info (v : pyval) : M ConfigFlow unit :=
  update_self (with_info v).

Definition set_host (v : pyval) : M ConfigFlow unit :=
  update_self (with_host v).

Definition set_filtered (c : catalog) : M ConfigFlow unit :=
  update_self (with_filtered c).

Definition dev_url (host : pyval) : string :=
  "http://" +:+ py_str host +:+ "/mypv_dev.jsn".

Definition data_url (host : pyval) : string :=
  "http://" +:+ py_str host +:+ "/data.jsn".

Definition _check_host (host : pyval) : M ConfigFlow bool :=
  try_except
    (response ← requests_get (dev_url host);
     raise_for_status response;;
     info ← json response;
     set_info info;;
     ret true)
    (λ e,
       if isinstance_ConnectTimeout_HTTPError e
       then Some (set_error CONF_HOST "could_not_connect";; ret false)
       else if isinstance_RequestException e
       then Some (set_error CONF_HOST "unexpected_error";; ret false)
       else None).

(** [data.keys()]: only a dict has the method. *)
Definition keys {O} (v : pyval) : M O (list string) :=
  match v with
  | VDict d => ret (d.*1)
  | _ => raise AttributeError
  end.

Definition _get_sensors (host : pyval) : M ConfigFlow unit :=
  try_except
    (response ← requests_get (data_url host);
     raise_for_status response;;
     data ← json response;
     ks ← keys data;
     let json_keys : gset string := list_to_set ks in
     set_filtered [];;
     for_each SENSOR_TYPES (λ item,
       let key := item.1 in
       let value := item.2 in
       if bool_decide (key ∈ json_keys)
       then update_self (λ f,
              with_filtered (dict_set key value.1 (_filtered_sensor_types f)) f)
       else ret tt))
    (λ e,
       if isinstance_RequestException e
       then Some (set_filtered [])
       else None).

(** [self._info.get(k)] and [self._info[k] = v]: [self._info] is whatever
    the device sent, and only a dict has [get]. *)
Definition info_get (k : string) : M ConfigFlow pyval :=
  f ← get_self;
  match _info f with
  | VDict d => ret (dict_get k VNone d)
  | _ => raise AttributeError
  end.

Definition info_setitem (k : string) (v : pyval) : M ConfigFlow unit :=
  f ← get_self;
  match _info f with
  | VDict d => set_info (VDict (dict_set k v d))
  | _ => raise TypeError
  end.

Definition info_getitem (k : string) : M ConfigFlow pyval :=
  f ← get_self;
  match _info f with
  | VDict d => getitem d k
  | _ => raise TypeError
  end.

Definition async_step_sensors (user_input : option dict)
  : M ConfigFlow FlowResult :=
  match user_input with
  | Some ui =>
      old_device ← info_get "device";
      info_setitem "device" (dict_get "device" old_device ui);;
      old_number ← info_get "number";
      info_setitem "number" (dict_get "number" old_number ui);;
      dev ← info_getitem "device";
      num ← info_getitem "number";
      f ← get_self;
      conditions ← getitem ui CONF_MONITORED_CONDITIONS;
      ret (CreateEntry (py_str dev +:+ " - " +:+ py_str num)
             [(CONF_HOST, _host f);
              (CONF_MONITORED_CONDITIONS, conditions);
              ("_filtered_sensor_types",
               py_of_catalog (_filtered_sensor_types f))])
  | None =>
      f ← get_self;
      let default_monitored_conditions :=
        match async_entries hass with
        | _ :: _ => []
        | [] => DEFAULT_MONITORED_CONDITIONS
        end in
      ret (ShowForm "sensors"
             (SensorsSchema default_monitored_conditions
                (_filtered_sensor_types f))
             (Some (_errors f)))
  end.

(** The tail of [async_step_user]: [user_input or {CONF_HOST: ...}] and
    the form. *)
Definition show_user_form (user_input : option dict)
  : M ConfigFlow FlowResult :=
  let user_input' :=
    match user_input with
    | Some (b :: d) => b :: d
    | _ => [(CONF_HOST, VStr "192.168.0.0")]
    end in
  dflt ← getitem user_input' CONF_HOST;
  f ← get_self;
  ret (ShowForm "user" (UserSchema dflt) (Some (_errors f))).

Definition async_step_user (user_input : option dict)
  : M ConfigFlow FlowResult :=
  match user_input with
  | Some ui =>
      host ← getitem ui CONF_HOST;
      set_host host;;
      present ← _host_in_configuration_exists host;
      if (present : bool)
      then set_error CONF_HOST "host_exists";; show_user_form user_input
      else
        can_connect ← _check_host host;
        if (can_connect : bool)
        then _get_sensors host;; async_step_sensors None
        else show_user_form user_input
  | None => show_user_form user_input
  end.

Definition async_step_import (user_input : option dict)
  : M ConfigFlow FlowResult :=
  host ← getitem_input user_input CONF_HOST;
  present ← _host_in_configuration_exists host;
  if (present : bool)
  then ret (Abort "host_exists")
  else
    host ← getitem_input user_input CONF_HOST;
    set_host host;;
    _ ← _check_host host;
    _get_sensors host;;
    async_step_sensors user_input.

(** [MypvOptionsFlowHandler]'s attributes. *)
Record OptionsFlow : Type := mkOptionsFlow {
  config_entry : ConfigEntry;
  filtered_sensor_types : pyval;
}.

(** [MypvOptionsFlowHandler.__init__], reached through
    [async_get_options_flow]. *)
Definition async_get_options_flow (entry : ConfigEntry) : OptionsFlow :=
  {| config_entry := entry;
     filtered_sensor_types :=
       dict_get "_filtered_sensor_types" (VDict []) (data entry) |}.

Definition async_step_init (user_input : option dict)
  : M OptionsFlow FlowResult :=
  match user_input with
  | Some ui =>
      conditions ← getitem ui CONF_MONITORED_CONDITIONS;
      ret (CreateEntry EmptyString [(CONF_MONITORED_CONDITIONS, conditions)])
  | None =>
      f ← get_self;
      ret (ShowForm "init"
             (OptionsSchema
                (dict_get CONF_MONITORED_CONDITIONS
                   (py_of_strings DEFAULT_MONITORED_CONDITIONS)
                   (options (config_entry f)))
                (filtered_sensor_types f))
             None)
  end.

(** *** What a probe ends in *)

(** The outcome of [requests.get], [raise_for_status] and [json] in a row:
    the parsed body, or the first exception raised. *)
Definition fetch_outcome (reply : http_reply) : Res pyval :=
  match reply with
  | Failure f => Exc (exn_of_failure f)
  | Reply r =>
      if bool_decide (400 ≤ status_code r < 600) then Exc HTTPError
      else match body r with
           | Some v => Ok v
           | None => Exc JSONDecodeError
           end
  end.

(** The rows of a table whose key occurs in [ks], each reduced to its key
    and label, in the table's order. *)
Definition select_rows (ks : list string)
    (tbl : list (string * (string * list pyval))) : catalog :=
  (λ item, (item.1, item.2.1)) <$> filter (λ item, item.1 ∈ ks) tbl.

(** The catalog the loop of [_get_sensors] leaves, started on [acc]. *)
Definition loop_catalog (ks : list string)
    (tbl : list (string * (string * list pyval))) (acc : catalog) : catalog :=
  fold_left
    (λ acc item, if bool_decide (item.1 ∈ ks)
                 then dict_set item.1 item.2.1 acc else acc)
    tbl acc.

(** The error code [_check_host] files an exception under. *)
Definition error_code (e : exn) : string :=
  if isinstance_ConnectTimeout_HTTPError e
  then "could_not_connect" else "unexpected_error".

(** The world after one more GET. *)
Definition logged {O} (url : string) (w : World O) : World O :=
  mkWorld (self w) (requests_log w ++ [url]).

Definition on_self {O} (f : O → O) (w : World O) : World O :=
  mkWorld (f (self w)) (requests_log w).

(** The hosts held by the persisted entries, and whether every entry holds
    one that can be put in a set. *)
Definition stored_hosts (entries : list ConfigEntry) : list pyval :=
  omap (λ entry, dict_lookup CONF_HOST (data entry)) entries.

Definition entries_ok (entries : list ConfigEntry) : bool :=
  forallb (λ entry, match dict_lookup CONF_HOST (data entry) with
                    | Some h => py_hashable h
                    | None => false
                    end) entries.

(** A probe that either fails with a request exception or yields a JSON
    object. *)
Definition object_or_failure (reply : http_reply) : bool :=
  match fetch_outcome reply with
  | Ok (VDict _) => true
  | Ok _ => false
  | Exc _ => true
  end.

Definition is_dict (v : pyval) : bool :=
  match v with
  | VDict _ => true
  | _ => false
  end.

(** The world [async_step_import] hands to the [sensors] step: the host is
    stored, then [_check_host] and [_get_sensors] run in that order. *)
Definition world_after_probes (host : pyval) (w : World ConfigFlow)
  : World ConfigFlow :=
  (_get_sensors host (_check_host host (on_self (with_host host) w)).2).2.

(** The default selection of the [sensors] form as the specification words
    it: empty when an entry exists, otherwise the default pair restricted to
    the catalog's keys.  It is only compared with what
    [async_step_sensors] computes. *)
Definition spec_default_conditions (entries : list ConfigEntry)
    (cat : catalog) : list string :=
  match entries with
  | _ :: _ => []
  | [] => filter (λ k, k ∈ cat.*1) DEFAULT_MONITORED_CONDITIONS
  end.


(** What [mypv_entries] evaluates to on a registry: the hosts, or the first
    exception met while collecting them. *)
Fixpoint hosts_result (entries : list ConfigEntry) : Res (list pyval) :=
  match entries with
  | [] => Ok []
  | entry :: rest =>
      match dict_lookup CONF_HOST (data entry) with
      | None => Exc (KeyError CONF_HOST)
      | Some h =>
          if py_hashable h
          then match hosts_result rest with
               | Ok hs => Ok (h :: hs)
               | Exc e => Exc e
               end
          else Exc TypeError
      end
  end.

(** What [_host_in_configuration_exists] answers for a host. *)
Definition host_check (host : pyval) : Res bool :=
  match hosts_result (async_entries hass) with
  | Ok s => if py_hashable host then Ok (existsb (py_eqb host) s)
            else Exc TypeError
  | Exc e => Exc e
  end.

(** The [sensors] form as displayed on a world. *)
Definition sensors_form_of (w : World ConfigFlow)
  : Res FlowResult * World ConfigFlow :=
  (Ok (ShowForm "sensors"
         (SensorsSchema
            match async_entries hass with
            | [] => DEFAULT_MONITORED_CONDITIONS
            | _ :: _ => []
            end
            (_filtered_sensor_types (self w)))
         (Some (_errors (self w)))),
   w).

(** The Device Info after the [sensors] step merged a submission into it. *)
Definition merged_info (ui info : dict) : dict :=
  dict_set "number" (dict_get "number" (dict_get "number" VNone info) ui)
    (dict_set "device" (dict_get "device" (dict_get "device" VNone info) ui)
       info).

(** ** Properties *)

Ltac run_monad :=
  unfold mbind, M_bind, bind, mret, M_ret, ret, raise, try_except,
    get_self, update_self in *.

Lemma fetch_outcome_request_exception reply e :
  fetch_outcome reply = Exc e → isinstance_RequestException e = true.
Proof.
  destruct reply as [[]|r]; simpl; [by intros [= <-]..|].
  case_bool_decide; [by intros [= <-]|].
  destruct (body r); [done|by intros [= <-]].
Qed.

Lemma check_host_run host w :
  _check_host host w =
    match fetch_outcome (device (dev_url host)) with
    | Ok info => (Ok true, on_self (with_info info) (logged (dev_url host) w))
    | Exc e =>
        (Ok false,
         on_self (with_error CONF_HOST (error_code e))
           (logged (dev_url host) w))
    end.
Proof.
  unfold _check_host, requests_get, fetch_outcome, error_code.
  run_monad. destruct (device (dev_url host)) as [f|r].
  - by destruct f.
  - unfold raise_for_status, json. run_monad.
    case_bool_decide; [done|]. by destruct (body r).
Qed.

Lemma for_each_run ks tbl (w : World ConfigFlow) :
  for_each tbl (λ item,
    if bool_decide (item.1 ∈ (list_to_set ks : gset string))
    then update_self (λ f,
           with_filtered (dict_set item.1 item.2.1 (_filtered_sensor_types f)) f)
    else ret tt) w
  = (Ok tt,
     on_self (with_filtered
                (loop_catalog ks tbl (_filtered_sensor_types (self w)))) w).
Proof.
  revert w. induction tbl as [|item tbl IH]; intros [f lg].
  - by destruct f.
  - simpl. run_monad.
    rewrite (bool_decide_ext (item.1 ∈ (list_to_set ks : gset string))
               (item.1 ∈ ks)) by apply elem_of_list_to_set.
    destruct (bool_decide (item.1 ∈ ks)); simpl; rewrite IH; by destruct f.
Qed.

Lemma get_sensors_run host w :
  _get_sensors host w =
    match fetch_outcome (device (data_url host)) with
    | Ok (VDict d) =>
        (Ok tt,
         on_self (with_filtered (loop_catalog (d.*1) SENSOR_TYPES []))
           (logged (data_url host) w))
    | Ok _ => (Exc AttributeError, logged (data_url host) w)
    | Exc e => (Ok tt, on_self (with_filtered []) (logged (data_url host) w))
    end.
Proof.
  unfold _get_sensors, requests_get, fetch_outcome.
  run_monad. destruct (device (data_url host)) as [f|r].
  - by destruct f.
  - unfold raise_for_status, json. run_monad.
    case_bool_decide; [done|]. destruct (body r) as [v|]; [|done].
    destruct v; try done.
    unfold keys, set_filtered. run_monad. by rewrite for_each_run.
Qed.

(** *** The catalog *)

Lemma dict_set_fresh {V} (k : string) (v : V) (d : list (string * V)) :
  k ∉ d.*1 → dict_set k v d = d ++ [(k, v)].
Proof.
  induction d as [|[k' v'] d IH]; simpl; [done|].
  intros Hk. apply not_elem_of_cons in Hk as [Hne Hk].
  rewrite decide_False by done. by rewrite IH.
Qed.

Lemma loop_catalog_select ks tbl acc :
  NoDup (tbl.*1) →
  (∀ k, k ∈ tbl.*1 → k ∉ acc.*1) →
  loop_catalog ks tbl acc = acc ++ select_rows ks tbl.
Proof.
  revert acc. induction tbl as [|[k v] tbl IH]; intros acc Hnd Hfresh.
  - by rewrite app_nil_r.
  - apply NoDup_cons in Hnd as [Hk Hnd].
    unfold loop_catalog, select_rows in *. simpl.
    rewrite filter_cons. simpl.
    destruct (decide (k ∈ ks)) as [Hin|Hin].
    + rewrite bool_decide_eq_true_2 by done.
      rewrite dict_set_fresh by (apply Hfresh; left).
      rewrite IH; [by rewrite <-app_assoc|done|].
      intros k' Hk'. rewrite fmap_app. simpl.
      intros [?| ->%list_elem_of_singleton]%elem_of_app; [|done].
      by eapply Hfresh; [right|].
    + rewrite bool_decide_eq_false_2 by done.
      apply IH; [done|]. intros k' Hk'. apply Hfresh. by right.
Qed.

Lemma dict_lookup_select_rows ks tbl k :
  dict_lookup k (select_rows ks tbl)
  = if decide (k ∈ ks) then fst <$> dict_lookup k tbl else None.
Proof.
  unfold select_rows. induction tbl as [|[k' v] tbl IH]; simpl.
  - by case_decide.
  - rewrite filter_cons. simpl.
    destruct (decide (k' ∈ ks)) as [Hin|Hin]; simpl;
      destruct (decide (k = k')) as [->|Hne]; try apply IH.
    + by case_decide.
    + rewrite IH. by case_decide.
Qed.

(** C1: when [data.jsn] answers with a JSON object, [_get_sensors] leaves
    as Sensor Catalog exactly the rows of the static table whose key occurs
    in the response, each mapped to its label, in the table's order; a key
    is bound in the catalog iff it is a key of the response and of the
    table, and then to the table's label. *)
Theorem C1_catalog_is_ordered_intersection host w r d :
  NoDup (SENSOR_TYPES.*1) →
  device (data_url host) = Reply r →
  ¬ (400 ≤ status_code r < 600) →
  body r = Some (VDict d) →
  (_get_sensors host w).1 = Ok tt
  ∧ _filtered_sensor_types (self (_get_sensors host w).2)
    = select_rows (d.*1) SENSOR_TYPES
  ∧ ∀ k, dict_lookup k (_filtered_sensor_types (self (_get_sensors host w).2))
         = if decide (k ∈ d.*1) then fst <$> dict_lookup k SENSOR_TYPES
           else None.
Proof.
  intros Hnd Hdev Hst Hbody.
  rewrite get_sensors_run. unfold fetch_outcome.
  rewrite Hdev, bool_decide_eq_false_2, Hbody by done. simpl.
  rewrite loop_catalog_select; [|done|by intros ? _ ?%elem_of_nil].
  simpl. split_and!; [done..|]. apply dict_lookup_select_rows.
Qed.

(** *** The steps *)

Lemma py_eqb_str h v : py_eqb (VStr h) v = true ↔ v = VStr h.
Proof.
  destruct v; simpl; try (split; [done|by intros [=]]).
  rewrite bool_decide_eq_true. split; [by intros ->|by intros [= ->]].
Qed.

Lemma existsb_py_eqb_str h l :
  existsb (py_eqb (VStr h)) l = true ↔ VStr h ∈ l.
Proof.
  induction l as [|a l IH]; cbn [existsb].
  - split; [done|by intros ?%elem_of_nil].
  - rewrite orb_true_iff, py_eqb_str, IH, elem_of_cons.
    split; (intros [Ha|?]; [by left|by right]).
Qed.

Lemma mypv_entries_of_run {O} entries (w : World O) :
  entries_ok entries = true →
  mypv_entries_of entries w = (Ok (stored_hosts entries), w).
Proof.
  induction entries as [|entry entries IH]; simpl; [done|].
  intros [Hh Hok]%andb_true_iff. unfold getitem. run_monad.
  destruct (dict_lookup CONF_HOST (data entry)) as [h|]; [|done].
  rewrite Hh. run_monad. by rewrite IH.
Qed.

Lemma host_exists_run h w :
  entries_ok (async_entries hass) = true →
  _host_in_configuration_exists (VStr h) w
  = (Ok (existsb (py_eqb (VStr h)) (stored_hosts (async_entries hass))), w).
Proof.
  intros Hok. unfold _host_in_configuration_exists, mypv_entries. run_monad.
  by rewrite mypv_entries_of_run.
Qed.

Lemma show_user_form_run ui v w :
  dict_lookup CONF_HOST ui = Some v →
  show_user_form (Some ui) w
  = (Ok (ShowForm "user" (UserSchema v) (Some (_errors (self w)))), w).
Proof.
  intros Hv. unfold show_user_form, getitem. run_monad.
  destruct ui as [|b ui]; [done|]. by rewrite Hv.
Qed.

(** The [user] step on a host that is already configured. *)
Lemma user_step_configured ui h w :
  entries_ok (async_entries hass) = true →
  dict_lookup CONF_HOST ui = Some (VStr h) →
  VStr h ∈ stored_hosts (async_entries hass) →
  async_step_user (Some ui) w
  = (Ok (ShowForm "user" (UserSchema (VStr h))
           (Some (<[CONF_HOST := "host_exists"]> (_errors (self w))))),
     on_self (with_error CONF_HOST "host_exists")
       (on_self (with_host (VStr h)) w)).
Proof.
  intros Hok Hui Hin. unfold async_step_user, getitem. rewrite Hui.
  unfold set_host, set_error. run_monad.
  rewrite host_exists_run by done.
  apply existsb_py_eqb_str in Hin. rewrite Hin.
  by rewrite (show_user_form_run _ (VStr h)).
Qed.

(** The [sensors] step without a submission. *)
Lemma sensors_form_run w :
  async_step_sensors None w
  = (Ok (ShowForm "sensors"
           (SensorsSchema
              match async_entries hass with
              | [] => DEFAULT_MONITORED_CONDITIONS
              | _ :: _ => []
              end
              (_filtered_sensor_types (self w)))
           (Some (_errors (self w)))),
     w).
Proof.
  unfold async_step_sensors. run_monad. by destruct (async_entries hass).
Qed.

(** C2: submitting in the [user] step a host that a persisted entry already
    holds redisplays the [user] form with the field error [host_exists];
    the request log is unchanged (no probe) and the step's result is a form,
    not an entry. *)
Theorem C2_user_step_host_exists ui h w :
  entries_ok (async_entries hass) = true →
  dict_lookup CONF_HOST ui = Some (VStr h) →
  VStr h ∈ stored_hosts (async_entries hass) →
  (async_step_user (Some ui) w).1
  = Ok (ShowForm "user" (UserSchema (VStr h))
          (Some (<[CONF_HOST := "host_exists"]> (_errors (self w)))))
  ∧ _errors (self (async_step_user (Some ui) w).2) !! CONF_HOST
    = Some "host_exists"
  ∧ requests_log (async_step_user (Some ui) w).2 = requests_log w.
Proof.
  intros Hok Hui Hin. rewrite (user_step_configured _ h) by done. simpl.
  split_and!; [done| |done]. apply lookup_insert_eq.
Qed.

Lemma host_absent h :
  VStr h ∉ stored_hosts (async_entries hass) →
  existsb (py_eqb (VStr h)) (stored_hosts (async_entries hass)) = false.
Proof. rewrite <-existsb_py_eqb_str. apply not_true_is_false. Qed.

(** The [user] step on a host that is not configured yet, up to the
    outcome of the first probe. *)
Lemma user_step_unconfigured ui h w :
  entries_ok (async_entries hass) = true →
  dict_lookup CONF_HOST ui = Some (VStr h) →
  VStr h ∉ stored_hosts (async_entries hass) →
  async_step_user (Some ui) w =
    match fetch_outcome (device (dev_url (VStr h))) with
    | Ok info =>
        (_get_sensors (VStr h);; async_step_sensors None)
          (on_self (with_info info)
             (logged (dev_url (VStr h)) (on_self (with_host (VStr h)) w)))
    | Exc e =>
        (Ok (ShowForm "user" (UserSchema (VStr h))
               (Some (<[CONF_HOST := error_code e]> (_errors (self w))))),
         on_self (with_error CONF_HOST (error_code e))
           (logged (dev_url (VStr h)) (on_self (with_host (VStr h)) w)))
    end.
Proof.
  intros Hok Hui Hout. unfold async_step_user, getitem. rewrite Hui.
  unfold set_host. run_monad.
  rewrite host_exists_run, host_absent, check_host_run by done.
  destruct (fetch_outcome (device (dev_url (VStr h)))) as [info|e]; [done|].
  by rewrite (show_user_form_run _ (VStr h)).
Qed.

(** C3 (as amended): when the [mypv_dev.jsn] probe of a host that is not
    configured yet ends in a connect timeout or in a response with a 4xx or
    5xx status, the [user] step redisplays the [user] form with the field
    error [could_not_connect]; only that one GET was issued and the result
    is a form, not an entry. *)
Theorem C3_user_step_could_not_connect ui h w :
  entries_ok (async_entries hass) = true →
  dict_lookup CONF_HOST ui = Some (VStr h) →
  VStr h ∉ stored_hosts (async_entries hass) →
  (device (dev_url (VStr h)) = Failure ConnectTimedOut
   ∨ ∃ r, device (dev_url (VStr h)) = Reply r ∧ 400 ≤ status_code r < 600) →
  (async_step_user (Some ui) w).1
  = Ok (ShowForm "user" (UserSchema (VStr h))
          (Some (<[CONF_HOST := "could_not_connect"]> (_errors (self w)))))
  ∧ requests_log (async_step_user (Some ui) w).2
    = requests_log w ++ [dev_url (VStr h)].
Proof.
  intros Hok Hui Hout Hdev. rewrite (user_step_unconfigured _ h) by done.
  assert (fetch_outcome (device (dev_url (VStr h))) = Exc ConnectTimeout
          ∨ fetch_outcome (device (dev_url (VStr h))) = Exc HTTPError)
    as [-> | ->]; [|done..].
  destruct Hdev as [-> | (r & -> & Hst)]; [by left|right].
  simpl. by rewrite bool_decide_eq_true_2.
Qed.

(** C4: when, for a host that is not configured yet, the [mypv_dev.jsn]
    probe succeeds and the [data.jsn] fetch fails (a transport failure, a
    4xx or 5xx status, or a body that is not JSON), the Sensor Catalog held
    by the flow is empty and the [user] step displays the [sensors] form. *)
Theorem C4_sensor_fetch_failure_still_advances ui h w info e :
  entries_ok (async_entries hass) = true →
  dict_lookup CONF_HOST ui = Some (VStr h) →
  VStr h ∉ stored_hosts (async_entries hass) →
  fetch_outcome (device (dev_url (VStr h))) = Ok info →
  fetch_outcome (device (data_url (VStr h))) = Exc e →
  (async_step_user (Some ui) w).1
  = Ok (ShowForm "sensors"
          (SensorsSchema
             match async_entries hass with
             | [] => DEFAULT_MONITORED_CONDITIONS
             | _ :: _ => []
             end [])
          (Some (_errors (self w))))
  ∧ _filtered_sensor_types (self (async_step_user (Some ui) w).2) = [].
Proof.
  intros Hok Hui Hout Hdev Hdata. rewrite (user_step_unconfigured _ h) by done.
  rewrite Hdev. run_monad. rewrite get_sensors_run, Hdata. simpl.
  by destruct (async_entries hass).
Qed.

(** C5 (as amended): the [sensors] form is displayed with the default
    selection empty when at least one entry of the integration exists, and
    otherwise with the fixed pair [power1_solar], [temp1], whatever the
    catalog holds; the catalog only supplies the offered choices. *)
Theorem C5_sensors_form_default w :
  async_step_sensors None w
  = (Ok (ShowForm "sensors"
           (SensorsSchema
              match async_entries hass with
              | [] => ["power1_solar"; "temp1"]
              | _ :: _ => []
              end
              (_filtered_sensor_types (self w)))
           (Some (_errors (self w)))),
     w).
Proof.
  rewrite sensors_form_run. by destruct (async_entries hass).
Qed.

Lemma dict_lookup_set_eq {V} (k : string) (v : V) d :
  dict_lookup k (dict_set k v d) = Some v.
Proof.
  induction d as [|[k' v'] d IH]; simpl.
  - by rewrite decide_True.
  - destruct (decide (k = k')) as [->|Hne]; simpl.
    + by rewrite decide_True.
    + by rewrite decide_False.
Qed.

Lemma dict_lookup_set_ne {V} (k k' : string) (v : V) d :
  k ≠ k' → dict_lookup k' (dict_set k v d) = dict_lookup k' d.
Proof.
  intros Hne. induction d as [|[k0 v0] d IH]; simpl.
  - by rewrite decide_False.
  - destruct (decide (k = k0)) as [->|Hne0]; simpl.
    + by rewrite !decide_False.
    + by rewrite IH.
Qed.

Lemma dict_get_set_ne {V} (k k' : string) (v dflt : V) d :
  k ≠ k' → dict_get k' dflt (dict_set k v d) = dict_get k' dflt d.
Proof. intros Hne. unfold dict_get. by rewrite dict_lookup_set_ne. Qed.

(** The [sensors] step on a submission, when the Device Info is a dict. *)
Lemma sensors_submit_run ui sel info w :
  _info (self w) = VDict info →
  dict_lookup CONF_MONITORED_CONDITIONS ui = Some sel →
  async_step_sensors (Some ui) w =
    let dev := dict_get "device" (dict_get "device" VNone info) ui in
    let num := dict_get "number" (dict_get "number" VNone info) ui in
    (Ok (CreateEntry (py_str dev +:+ " - " +:+ py_str num)
           [(CONF_HOST, _host (self w));
            (CONF_MONITORED_CONDITIONS, sel);
            ("_filtered_sensor_types",
             py_of_catalog (_filtered_sensor_types (self w)))]),
     on_self (with_info
                (VDict (dict_set "number" num (dict_set "device" dev info))))
       w).
Proof.
  intros Hinfo Hsel. destruct w as [[errs i hst cat] lg].
  simpl in Hinfo. subst i.
  unfold async_step_sensors, info_get, info_setitem, info_getitem, set_info,
    getitem.
  run_monad.
  repeat first
    [ rewrite dict_get_set_ne by done
    | rewrite dict_lookup_set_ne by done
    | rewrite dict_lookup_set_eq
    | rewrite Hsel
    | progress cbn [self _info with_info requests_log _host
                    _filtered_sensor_types on_self] ].
  done.
Qed.

(** C6: a submission of the [sensors] step creates an entry titled
    [device - number], each of the two taken from the submission when it
    carries the key and otherwise from the Device Info fetched before
    ([None] when that has no such key either); the entry's data is the
    stored host, the submitted selection and the flow's Sensor Catalog, and
    nothing else. *)
Theorem C6_sensors_submission_creates_entry ui sel info w :
  _info (self w) = VDict info →
  dict_lookup CONF_MONITORED_CONDITIONS ui = Some sel →
  (async_step_sensors (Some ui) w).1
  = Ok (CreateEntry
          (py_str (default (default VNone (dict_lookup "device" info))
                     (dict_lookup "device" ui))
           +:+ " - " +:+
           py_str (default (default VNone (dict_lookup "number" info))
                     (dict_lookup "number" ui)))
          [("host", _host (self w));
           ("monitored_conditions", sel);
           ("_filtered_sensor_types",
            py_of_catalog (_filtered_sensor_types (self w)))]).
Proof.
  intros Hinfo Hsel. rewrite (sensors_submit_run _ sel info) by done.
  simpl. unfold dict_get.
  by destruct (dict_lookup "device" ui), (dict_lookup "number" ui),
    (dict_lookup "device" info), (dict_lookup "number" info).
Qed.

(** *** The import entry point *)

Lemma world_after_probes_log host w :
  requests_log (world_after_probes host w)
  = requests_log w ++ [dev_url host; data_url host].
Proof.
  unfold world_after_probes. rewrite get_sensors_run, check_host_run.
  destruct (fetch_outcome (device (dev_url host)));
    destruct (fetch_outcome (device (data_url host))) as [[]|]; simpl;
    by rewrite <-app_assoc.
Qed.

Lemma world_after_probes_host host w :
  _host (self (world_after_probes host w)) = host.
Proof.
  unfold world_after_probes. rewrite get_sensors_run, check_host_run.
  by destruct (fetch_outcome (device (dev_url host)));
    destruct (fetch_outcome (device (data_url host))) as [[]|].
Qed.

Lemma world_after_probes_info host w :
  _info (self (world_after_probes host w))
  = match fetch_outcome (device (dev_url host)) with
    | Ok info => info
    | Exc _ => _info (self w)
    end.
Proof.
  unfold world_after_probes. rewrite get_sensors_run, check_host_run.
  by destruct (fetch_outcome (device (dev_url host)));
    destruct (fetch_outcome (device (data_url host))) as [[]|].
Qed.

Lemma get_sensors_returns host w :
  object_or_failure (device (data_url host)) = true →
  (_get_sensors host w).1 = Ok tt.
Proof.
  unfold object_or_failure. rewrite get_sensors_run.
  by destruct (fetch_outcome (device (data_url host))) as [[]|].
Qed.

Lemma import_existing_run ui h w :
  entries_ok (async_entries hass) = true →
  dict_lookup CONF_HOST ui = Some (VStr h) →
  VStr h ∈ stored_hosts (async_entries hass) →
  async_step_import (Some ui) w = (Ok (Abort "host_exists"), w).
Proof.
  intros Hok Hui Hin. unfold async_step_import, getitem_input, getitem.
  rewrite Hui. run_monad. rewrite host_exists_run by done.
  apply existsb_py_eqb_str in Hin. by rewrite Hin.
Qed.

Lemma import_new_run ui h w :
  entries_ok (async_entries hass) = true →
  dict_lookup CONF_HOST ui = Some (VStr h) →
  VStr h ∉ stored_hosts (async_entries hass) →
  object_or_failure (device (data_url (VStr h))) = true →
  async_step_import (Some ui) w
  = async_step_sensors (Some ui) (world_after_probes (VStr h) w).
Proof.
  intros Hok Hui Hout Hobj.
  unfold async_step_import, getitem_input, getitem, world_after_probes.
  rewrite Hui. unfold set_host. run_monad.
  rewrite host_exists_run, host_absent by done.
  cbn [self requests_log]. fold (on_self (with_host (VStr h)) w).
  rewrite check_host_run.
  destruct (fetch_outcome (device (dev_url (VStr h)))) as [info|e];
    cbn [snd];
    match goal with
    | |- context [_get_sensors ?a ?b] =>
        pose proof (get_sensors_returns a b Hobj) as Hret;
        destruct (_get_sensors a b) as [r w']
    end; simpl in Hret; by subst r.
Qed.

(** C7 (as amended): the import entry point aborts with reason
    [host_exists], without any probe, when its host is already configured;
    otherwise it fetches [mypv_dev.jsn] and then [data.jsn] and, provided
    the [data.jsn] fetch fails or yields a JSON object, its result is the
    [sensors] step's on the caller's input as submission. *)
Theorem C7_import_aborts_or_feeds_sensors ui h w :
  entries_ok (async_entries hass) = true →
  dict_lookup CONF_HOST ui = Some (VStr h) →
  (VStr h ∈ stored_hosts (async_entries hass) →
     async_step_import (Some ui) w = (Ok (Abort "host_exists"), w))
  ∧ (VStr h ∉ stored_hosts (async_entries hass) →
     object_or_failure (device (data_url (VStr h))) = true →
     async_step_import (Some ui) w
     = async_step_sensors (Some ui) (world_after_probes (VStr h) w)
     ∧ requests_log (world_after_probes (VStr h) w)
       = requests_log w ++ [dev_url (VStr h); data_url (VStr h)]).
Proof.
  intros Hok Hui. split.
  - by apply import_existing_run.
  - intros Hout Hobj. split.
    + by apply import_new_run.
    + apply world_after_probes_log.
Qed.

(** C8: a submission of the options editor's [init] step finalizes with
    exactly the submitted selection as the new options record, whatever the
    entry's stored options are; without a submission the form offers the
    catalog stored in the entry's data (empty when the entry has none); in
    both cases the flow object and the request log are unchanged, so no
    probe is made. *)
Theorem C8_options_replaced_wholesale ui sel entry lg :
  dict_lookup CONF_MONITORED_CONDITIONS ui = Some sel →
  async_step_init (Some ui) (mkWorld (async_get_options_flow entry) lg)
  = (Ok (CreateEntry EmptyString [("monitored_conditions", sel)]),
     mkWorld (async_get_options_flow entry) lg)
  ∧ async_step_init None (mkWorld (async_get_options_flow entry) lg)
    = (Ok (ShowForm "init"
             (OptionsSchema
                (default (VList [VStr "power1_solar"; VStr "temp1"])
                   (dict_lookup "monitored_conditions" (options entry)))
                (default (VDict [])
                   (dict_lookup "_filtered_sensor_types" (data entry))))
             None),
       mkWorld (async_get_options_flow entry) lg).
Proof.
  intros Hsel. unfold async_step_init, getitem. rewrite Hsel. split; [done|].
  unfold async_get_options_flow, dict_get. run_monad. simpl.
  by destruct (dict_lookup _ (options entry)), (dict_lookup _ (data entry)).
Qed.

(** *** Exceptions *)





(** *** Every path of the steps *)

Lemma mypv_entries_of_any {O} entries (w : World O) :
  mypv_entries_of entries w = (hosts_result entries, w).
Proof.
  induction entries as [|entry entries IH]; simpl; [done|].
  unfold getitem. run_monad.
  destruct (dict_lookup CONF_HOST (data entry)) as [h|]; [|done].
  destruct (py_hashable h); [|done]. run_monad. rewrite IH.
  by destruct (hosts_result entries).
Qed.

Lemma host_check_run host w :
  _host_in_configuration_exists host w = (host_check host, w).
Proof.
  unfold _host_in_configuration_exists, mypv_entries, host_check, set_contains.
  run_monad. rewrite mypv_entries_of_any.
  destruct (hosts_result (async_entries hass)); [|done].
  by destruct (py_hashable host).
Qed.

Lemma sensors_submit_cases ui w :
  async_step_sensors (Some ui) w =
    match _info (self w) with
    | VDict info =>
        match dict_lookup CONF_MONITORED_CONDITIONS ui with
        | Some sel =>
            (Ok (CreateEntry
                   (py_str (dict_get "device" (dict_get "device" VNone info) ui)
                    +:+ " - " +:+
                    py_str (dict_get "number" (dict_get "number" VNone info) ui))
                   [(CONF_HOST, _host (self w));
                    (CONF_MONITORED_CONDITIONS, sel);
                    ("_filtered_sensor_types",
                     py_of_catalog (_filtered_sensor_types (self w)))]),
             on_self (with_info (VDict (merged_info ui info))) w)
        | None =>
            (Exc (KeyError CONF_MONITORED_CONDITIONS),
             on_self (with_info (VDict (merged_info ui info))) w)
        end
    | _ => (Exc AttributeError, w)
    end.
Proof.
  destruct w as [[errs i hst cat] lg].
  unfold async_step_sensors, info_get, info_setitem, info_getitem, set_info,
    getitem, merged_info.
  run_monad. cbn [self _info].
  destruct i; try done.
  repeat first
    [ rewrite dict_get_set_ne by done
    | rewrite dict_lookup_set_ne by done
    | rewrite dict_lookup_set_eq
    | progress cbn [self _info with_info requests_log _host
                    _filtered_sensor_types on_self] ].
  by destruct (dict_lookup CONF_MONITORED_CONDITIONS ui).
Qed.

(** [_get_sensors] followed by the display of the [sensors] form. *)
Lemma sensors_after_fetch_run host w :
  (_get_sensors host;; async_step_sensors None) w =
    match fetch_outcome (device (data_url host)) with
    | Ok (VDict d) =>
        sensors_form_of
          (on_self (with_filtered (loop_catalog (d.*1) SENSOR_TYPES []))
             (logged (data_url host) w))
    | Ok _ => (Exc AttributeError, logged (data_url host) w)
    | Exc e =>
        sensors_form_of (on_self (with_filtered []) (logged (data_url host) w))
    end.
Proof.
  run_monad. rewrite get_sensors_run. unfold sensors_form_of.
  destruct (fetch_outcome (device (data_url host))) as [[]|];
    try done; by rewrite sensors_form_run.
Qed.

Lemma user_step_cases ui w :
  async_step_user (Some ui) w =
    match dict_lookup CONF_HOST ui with
    | None => (Exc (KeyError CONF_HOST), w)
    | Some host =>
        let w0 := on_self (with_host host) w in
        match host_check host with
        | Exc e => (Exc e, w0)
        | Ok true =>
            (Ok (ShowForm "user" (UserSchema host)
                   (Some (<[CONF_HOST := "host_exists"]> (_errors (self w))))),
             on_self (with_error CONF_HOST "host_exists") w0)
        | Ok false =>
            match fetch_outcome (device (dev_url host)) with
            | Ok info =>
                (_get_sensors host;; async_step_sensors None)
                  (on_self (with_info info) (logged (dev_url host) w0))
            | Exc e =>
                (Ok (ShowForm "user" (UserSchema host)
                       (Some (<[CONF_HOST := error_code e]> (_errors (self w))))),
                 on_self (with_error CONF_HOST (error_code e))
                   (logged (dev_url host) w0))
            end
        end
    end.
Proof.
  unfold async_step_user, getitem.
  destruct (dict_lookup CONF_HOST ui) as [host|] eqn:Hui; [|done].
  unfold set_host, set_error. run_monad. rewrite host_check_run.
  destruct (host_check host) as [[]|]; [| |done].
  - by rewrite (show_user_form_run _ host).
  - rewrite check_host_run.
    destruct (fetch_outcome (device (dev_url host))); [done|].
    by rewrite (show_user_form_run _ host).
Qed.

Lemma import_cases ui w :
  async_step_import (Some ui) w =
    match dict_lookup CONF_HOST ui with
    | None => (Exc (KeyError CONF_HOST), w)
    | Some host =>
        match host_check host with
        | Exc e => (Exc e, w)
        | Ok true => (Ok (Abort "host_exists"), w)
        | Ok false =>
            match fetch_outcome (device (data_url host)) with
            | Ok (VDict _) | Exc _ =>
                async_step_sensors (Some ui) (world_after_probes host w)
            | Ok _ => (Exc AttributeError, world_after_probes host w)
            end
        end
    end.
Proof.
  unfold async_step_import, getitem_input, getitem, world_after_probes.
  destruct (dict_lookup CONF_HOST ui) as [host|] eqn:Hui; [|done].
  unfold set_host. run_monad. rewrite host_check_run.
  destruct (host_check host) as [[]|]; [done| |done].
  cbn [self requests_log]. fold (on_self (with_host host) w).
  rewrite check_host_run.
  destruct (fetch_outcome (device (dev_url host))) as [info|e]; cbn [snd];
    rewrite get_sensors_run;
    by destruct (fetch_outcome (device (data_url host))) as [[]|].
Qed.

(** *** Further properties of the probes *)

(** X1: when the [mypv_dev.jsn] probe of a host that is not configured yet
    fails in any way other than a connect timeout or a 4xx/5xx status (a
    read timeout, a refused connection, another transport failure, or a body
    that is not JSON), the [user] step redisplays the [user] form with the
    field error [unexpected_error], after that one GET. *)
Theorem X1_user_step_unexpected_error ui h w :
  entries_ok (async_entries hass) = true →
  dict_lookup CONF_HOST ui = Some (VStr h) →
  VStr h ∉ stored_hosts (async_entries hass) →
  ((∃ f, device (dev_url (VStr h)) = Failure f ∧ f ≠ ConnectTimedOut)
   ∨ ∃ r, device (dev_url (VStr h)) = Reply r
          ∧ ¬ (400 ≤ status_code r < 600) ∧ body r = None) →
  (async_step_user (Some ui) w).1
  = Ok (ShowForm "user" (UserSchema (VStr h))
          (Some (<[CONF_HOST := "unexpected_error"]> (_errors (self w)))))
  ∧ requests_log (async_step_user (Some ui) w).2
    = requests_log w ++ [dev_url (VStr h)].
Proof.
  intros Hok Hui Hout Hdev. rewrite (user_step_unconfigured _ h) by done.
  assert (∃ e, fetch_outcome (device (dev_url (VStr h))) = Exc e
               ∧ error_code e = "unexpected_error") as (e & -> & He).
  { destruct Hdev as [(f & -> & Hf) | (r & -> & Hst & Hbody)]; simpl.
    - exists (exn_of_failure f). by destruct f.
    - rewrite bool_decide_eq_false_2, Hbody by done. by eexists. }
  by rewrite He.
Qed.

(** X2: the whole happy path of the [user] step.  For a host that is not
    configured yet, a [mypv_dev.jsn] reply with any JSON body and a
    [data.jsn] reply with a JSON object, the step displays the [sensors] form
    offering the table rows present in the response, with the errors it
    started with; afterwards the flow holds the host and the Device Info, and
    exactly the two GETs were made, [mypv_dev.jsn] first. *)
Theorem X2_user_step_happy_path ui h w info d :
  NoDup (SENSOR_TYPES.*1) →
  entries_ok (async_entries hass) = true →
  dict_lookup CONF_HOST ui = Some (VStr h) →
  VStr h ∉ stored_hosts (async_entries hass) →
  fetch_outcome (device (dev_url (VStr h))) = Ok info →
  fetch_outcome (device (data_url (VStr h))) = Ok (VDict d) →
  (async_step_user (Some ui) w).1
  = Ok (ShowForm "sensors"
          (SensorsSchema
             match async_entries hass with
             | [] => ["power1_solar"; "temp1"]
             | _ :: _ => []
             end
             (select_rows (d.*1) SENSOR_TYPES))
          (Some (_errors (self w))))
  ∧ _host (self (async_step_user (Some ui) w).2) = VStr h
  ∧ _info (self (async_step_user (Some ui) w).2) = info
  ∧ requests_log (async_step_user (Some ui) w).2
    = requests_log w ++ [dev_url (VStr h); data_url (VStr h)].
Proof.
  intros Hnd Hok Hui Hout Hdev Hdata.
  rewrite (user_step_unconfigured _ h) by done.
  rewrite Hdev, sensors_after_fetch_run, Hdata. unfold sensors_form_of.
  rewrite loop_catalog_select; [|done|by intros ? _ ?%elem_of_nil].
  simpl. rewrite <-app_assoc. by split_and!.
Qed.

(** X3: [self._errors] is never cleared.  When a first submission fails at
    the probe and a second one, for another host, succeeds, the [sensors]
    form that is displayed still carries the error recorded for the first. *)
Theorem X3_errors_survive_a_successful_retry ui1 h1 e ui2 h2 info w :
  entries_ok (async_entries hass) = true →
  dict_lookup CONF_HOST ui1 = Some (VStr h1) →
  VStr h1 ∉ stored_hosts (async_entries hass) →
  fetch_outcome (device (dev_url (VStr h1))) = Exc e →
  dict_lookup CONF_HOST ui2 = Some (VStr h2) →
  VStr h2 ∉ stored_hosts (async_entries hass) →
  fetch_outcome (device (dev_url (VStr h2))) = Ok info →
  object_or_failure (device (data_url (VStr h2))) = true →
  ∃ dflt cat,
    (async_step_user (Some ui2) (async_step_user (Some ui1) w).2).1
    = Ok (ShowForm "sensors" (SensorsSchema dflt cat)
            (Some (<[CONF_HOST := error_code e]> (_errors (self w))))).
Proof.
  intros Hok Hui1 Hout1 Hdev1 Hui2 Hout2 Hdev2 Hdata2.
  rewrite (user_step_unconfigured ui1 h1 w) by done. rewrite Hdev1. cbn [snd].
  rewrite (user_step_unconfigured ui2 h2) by done.
  rewrite Hdev2, sensors_after_fetch_run. unfold object_or_failure in Hdata2.
  unfold sensors_form_of.
  destruct (fetch_outcome (device (data_url (VStr h2)))) as [[]|];
    try done; by do 2 eexists.
Qed.

(** X4: a [data.jsn] reply whose body is JSON but not an object makes
    [_get_sensors] raise [AttributeError]; the exception is not caught, and
    the flow object, its previous catalog included, is left as it was. *)
Theorem X4_get_sensors_non_object_body host w r v :
  device (data_url host) = Reply r →
  ¬ (400 ≤ status_code r < 600) →
  body r = Some v →
  is_dict v = false →
  _get_sensors host w
  = (Exc AttributeError,
     mkWorld (self w) (requests_log w ++ [data_url host])).
Proof.
  intros Hdev Hst Hbody Hv. rewrite get_sensors_run. unfold fetch_outcome.
  rewrite Hdev, bool_decide_eq_false_2, Hbody by done. by destruct v.
Qed.

Lemma dict_set_keys {V} (k k' : string) (v : V) d :
  k' ∈ (dict_set k v d).*1 ↔ k' = k ∨ k' ∈ d.*1.
Proof.
  induction d as [|[k0 v0] d IH]; simpl.
  - rewrite list_elem_of_singleton, elem_of_nil. tauto.
  - destruct (decide (k = k0)) as [->|Hne]; simpl;
      rewrite !elem_of_cons; [tauto|]. rewrite IH. tauto.
Qed.

Lemma dict_set_NoDup {V} (k : string) (v : V) d :
  NoDup (d.*1) → NoDup ((dict_set k v d).*1).
Proof.
  induction d as [|[k0 v0] d IH]; simpl.
  - intros _. apply NoDup_singleton.
  - intros [Hk0 Hnd]%NoDup_cons.
    destruct (decide (k = k0)) as [->|Hne]; simpl; apply NoDup_cons.
    + done.
    + split; [|by apply IH]. rewrite dict_set_keys. by intros [->|?].
Qed.

Lemma loop_catalog_keys ks tbl acc k :
  k ∈ (loop_catalog ks tbl acc).*1 ↔ k ∈ acc.*1 ∨ (k ∈ ks ∧ k ∈ tbl.*1).
Proof.
  revert acc. induction tbl as [|[k0 v0] tbl IH]; intros acc; simpl.
  - rewrite elem_of_nil. tauto.
  - unfold loop_catalog in *. simpl. rewrite IH, elem_of_cons.
    case_bool_decide as Hk0; [rewrite dict_set_keys|]; simpl in *;
      intuition (subst; tauto).
Qed.

Lemma loop_catalog_NoDup ks tbl acc :
  NoDup (acc.*1) → NoDup ((loop_catalog ks tbl acc).*1).
Proof.
  revert acc. induction tbl as [|[k0 v0] tbl IH]; intros acc Hnd; [done|].
  unfold loop_catalog in *. simpl. apply IH.
  case_bool_decide; [by apply dict_set_NoDup|done].
Qed.

(** X5: whatever the table holds, when [_get_sensors] returns, the keys of
    the catalog it leaves are pairwise distinct, and a key is in the catalog
    exactly when it is a key of the table and of a JSON object that
    [data.jsn] answered with; after a failed fetch no key is. *)
Theorem X5_catalog_keys_for_any_table host w :
  (_get_sensors host w).1 = Ok tt →
  NoDup ((_filtered_sensor_types (self (_get_sensors host w).2)).*1)
  ∧ ∀ k, k ∈ (_filtered_sensor_types (self (_get_sensors host w).2)).*1
         ↔ k ∈ SENSOR_TYPES.*1
           ∧ ∃ d, fetch_outcome (device (data_url host)) = Ok (VDict d)
                  ∧ k ∈ d.*1.
Proof.
  rewrite get_sensors_run.
  destruct (fetch_outcome (device (data_url host))) as [[| | | | |d]|e];
    try done; intros _; simpl.
  - split.
    + apply loop_catalog_NoDup. simpl. apply NoDup_nil_2.
    + intros k. rewrite loop_catalog_keys. simpl. rewrite elem_of_nil.
      split.
      * intros [[]|[Hks Htbl]]. split; [done|]. by exists d.
      * intros [Htbl (d' & [= <-] & Hks)]. by right.
  - split; [apply NoDup_nil_2|].
    intros k. rewrite elem_of_nil. split; [done|]. by intros [_ (d & ? & _)].
Qed.

Lemma hosts_result_ok entries :
  entries_ok entries = true → hosts_result entries = Ok (stored_hosts entries).
Proof.
  induction entries as [|entry entries IH]; simpl; [done|].
  intros [Hh Hok]%andb_true_iff.
  destruct (dict_lookup CONF_HOST (data entry)) as [h|]; [|done].
  by rewrite Hh, IH.
Qed.

Lemma elem_of_stored_hosts entries v :
  v ∈ stored_hosts entries
  ↔ ∃ entry, entry ∈ entries ∧ dict_lookup CONF_HOST (data entry) = Some v.
Proof. unfold stored_hosts. by rewrite list_elem_of_omap. Qed.

(** X6: the uniqueness check compares hosts as exact strings.  On a registry
    whose entries all hold a hashable host, [_host_in_configuration_exists]
    on a string returns without touching the flow or the device, and answers
    [True] exactly when some entry holds that very string as its host. *)
Theorem X6_host_exists_iff_stored h w :
  entries_ok (async_entries hass) = true →
  ∃ b, _host_in_configuration_exists (VStr h) w = (Ok b, w)
       ∧ (b = true
          ↔ ∃ entry, entry ∈ async_entries hass
                     ∧ dict_lookup "host" (data entry) = Some (VStr h)).
Proof.
  intros Hok. rewrite host_exists_run by done. eexists. split; [done|].
  by rewrite existsb_py_eqb_str, elem_of_stored_hosts.
Qed.

(** *** What the steps never do *)

Lemma hosts_result_exn entries e :
  hosts_result entries = Exc e → isinstance_RequestException e = false.
Proof.
  induction entries as [|entry entries IH]; simpl; [done|].
  destruct (dict_lookup CONF_HOST (data entry)) as [h|]; [|by intros [= <-]].
  destruct (py_hashable h); [|by intros [= <-]].
  destruct (hosts_result entries); [done|]. intros [= <-]. by apply IH.
Qed.

Lemma host_check_exn host e :
  host_check host = Exc e → isinstance_RequestException e = false.
Proof.
  unfold host_check.
  destruct (hosts_result (async_entries hass)) eqn:Hr.
  - destruct (py_hashable host); [done|by intros [= <-]].
  - intros [= <-]. by eapply hosts_result_exn.
Qed.

(** X7: the [user] step never finalizes the flow.  Whatever it is given,
    when it returns, it returns the [user] form or the [sensors] form, never
    an entry and never an abort. *)
Theorem X7_user_step_only_displays_forms user_input w r :
  (async_step_user user_input w).1 = Ok r →
  ∃ schema errs,
    r = ShowForm "user" schema errs ∨ r = ShowForm "sensors" schema errs.
Proof.
  destruct user_input as [ui|].
  - rewrite user_step_cases.
    destruct (dict_lookup CONF_HOST ui) as [host|]; [|done]. cbn zeta.
    destruct (host_check host) as [[]|]; [| |done].
    + intros [= <-]. do 2 eexists. by left.
    + destruct (fetch_outcome (device (dev_url host))).
      * rewrite sensors_after_fetch_run. unfold sensors_form_of.
        destruct (fetch_outcome (device (data_url host))) as [[]|];
          try done; intros [= <-]; do 2 eexists; by right.
      * intros [= <-]. do 2 eexists. by left.
  - intros [= <-]. do 2 eexists. by left.
Qed.

(** X8: the import entry point never displays a form.  When it returns, it
    returns the abort [host_exists] or a created entry. *)
Theorem X8_import_never_displays_a_form user_input w r :
  (async_step_import user_input w).1 = Ok r →
  r = Abort "host_exists" ∨ ∃ title d, r = CreateEntry title d.
Proof.
  destruct user_input as [ui|]; [|done].
  rewrite import_cases.
  destruct (dict_lookup CONF_HOST ui) as [host|]; [|done].
  destruct (host_check host) as [[]|]; [by intros [= <-]; left| |done].
  assert (∀ w', (async_step_sensors (Some ui) w').1 = Ok r →
                ∃ title d, r = CreateEntry title d) as Hsub.
  { intros w'. rewrite sensors_submit_cases.
    destruct (_info (self w')); try done.
    destruct (dict_lookup CONF_MONITORED_CONDITIONS ui); [|done].
    intros [= <-]. by do 2 eexists. }
  destruct (fetch_outcome (device (data_url host))) as [[]|];
    try done; intros ?; right; by eapply Hsub.
Qed.

(** X9: no exception of the request library escapes the [user] step or the
    import entry point: what either raises is never a [RequestException]. *)
Theorem X9_request_exceptions_never_escape user_input w e :
  (async_step_user user_input w).1 = Exc e
  ∨ (async_step_import user_input w).1 = Exc e →
  isinstance_RequestException e = false.
Proof.
  destruct user_input as [ui|]; [|by intros [[=]|[= <-]]].
  rewrite user_step_cases, import_cases.
  destruct (dict_lookup CONF_HOST ui) as [host|];
    [|by intros [[= <-]|[= <-]]]. cbn zeta.
  destruct (host_check host) as [[]|e'] eqn:Hc.
  - by intros [[=]|[=]].
  - intros [Hu|Hi].
    + destruct (fetch_outcome (device (dev_url host))); [|done].
      rewrite sensors_after_fetch_run in Hu. unfold sensors_form_of in Hu.
      by destruct (fetch_outcome (device (data_url host))) as [[]|];
        try done; injection Hu as <-.
    + assert (∀ w', (async_step_sensors (Some ui) w').1 = Exc e →
                    isinstance_RequestException e = false) as Hsub.
      { intros w'. rewrite sensors_submit_cases.
        destruct (_info (self w')); try (by intros [= <-]).
        destruct (dict_lookup CONF_MONITORED_CONDITIONS ui);
          [done|by intros [= <-]]. }
      destruct (fetch_outcome (device (data_url host))) as [[]|];
        try (by injection Hi as <-); by eapply Hsub.
  - intros [[= <-]|[= <-]]; by eapply host_check_exn.
Qed.

(** X10: the requests of the [user] step.  It makes none unless a host was
    submitted and found not configured; it then fetches [mypv_dev.jsn], and
    fetches [data.jsn] after it only when that first probe succeeded. *)
Theorem X10_user_step_requests user_input w :
  requests_log (async_step_user user_input w).2
  = requests_log w
    ++ match user_input with
       | Some ui =>
           match dict_lookup CONF_HOST ui with
           | Some host =>
               match host_check host with
               | Ok false =>
                   match fetch_outcome (device (dev_url host)) with
                   | Ok _ => [dev_url host; data_url host]
                   | Exc _ => [dev_url host]
                   end
               | _ => []
               end
           | None => []
           end
       | None => []
       end.
Proof.
  destruct user_input as [ui|]; [|by rewrite app_nil_r].
  rewrite user_step_cases.
  destruct (dict_lookup CONF_HOST ui) as [host|]; [|by rewrite app_nil_r].
  cbn zeta.
  destruct (host_check host) as [[]|]; try by rewrite app_nil_r.
  destruct (fetch_outcome (device (dev_url host))); [|done].
  rewrite sensors_after_fetch_run. unfold sensors_form_of.
  destruct (fetch_outcome (device (data_url host))) as [[]|];
    simpl; by rewrite <-app_assoc.
Qed.

(** X11: the requests of the import entry point.  It makes none when it
    aborts or has no usable host, and otherwise always both, [mypv_dev.jsn]
    then [data.jsn]: a failed first probe does not stop the second. *)
Theorem X11_import_requests ui w :
  requests_log (async_step_import (Some ui) w).2
  = requests_log w
    ++ match dict_lookup CONF_HOST ui with
       | Some host =>
           match host_check host with
           | Ok false => [dev_url host; data_url host]
           | _ => []
           end
       | None => []
       end.
Proof.
  rewrite import_cases.
  destruct (dict_lookup CONF_HOST ui) as [host|]; [|by rewrite app_nil_r].
  destruct (host_check host) as [[]|]; try by rewrite app_nil_r.
  assert (∀ w', requests_log (async_step_sensors (Some ui) w').2
                = requests_log w') as Hsub.
  { intros w'. rewrite sensors_submit_cases.
    destruct (_info (self w')); try done.
    by destruct (dict_lookup CONF_MONITORED_CONDITIONS ui). }
  destruct (fetch_outcome (device (data_url host))) as [[]|] eqn:Hd;
    rewrite ?Hsub; apply world_after_probes_log.
Qed.

(** *** From the wizard to the entry and back *)

(** X12: when the import entry point's [mypv_dev.jsn] probe succeeds with a
    JSON object, the entry it creates is titled from the caller's [device]
    and [number] where given and from that object otherwise, and holds the
    host, the caller's selection and the catalog of the second probe. *)
Theorem X12_import_titles_from_device_info ui h sel info w :
  entries_ok (async_entries hass) = true →
  dict_lookup CONF_HOST ui = Some (VStr h) →
  VStr h ∉ stored_hosts (async_entries hass) →
  dict_lookup CONF_MONITORED_CONDITIONS ui = Some sel →
  fetch_outcome (device (dev_url (VStr h))) = Ok (VDict info) →
  object_or_failure (device (data_url (VStr h))) = true →
  (async_step_import (Some ui) w).1
  = Ok (CreateEntry
          (py_str (default (default VNone (dict_lookup "device" info))
                     (dict_lookup "device" ui))
           +:+ " - " +:+
           py_str (default (default VNone (dict_lookup "number" info))
                     (dict_lookup "number" ui)))
          [("host", VStr h);
           ("monitored_conditions", sel);
           ("_filtered_sensor_types",
            py_of_catalog
              (_filtered_sensor_types
                 (self (world_after_probes (VStr h) w))))]).
Proof.
  intros Hok Hui Hout Hsel Hdev Hdata.
  rewrite (import_new_run _ h) by done.
  rewrite (sensors_submit_run _ sel info).
  - rewrite world_after_probes_host. simpl. unfold dict_get.
    by destruct (dict_lookup "device" ui), (dict_lookup "number" ui),
      (dict_lookup "device" info), (dict_lookup "number" info).
  - by rewrite world_after_probes_info, Hdev.
  - done.
Qed.

(** X13: the catalog survives the trip through the persisted entry.  The
    options editor opened on an entry holding the data of an entry the
    [sensors] step created, and no stored selection in its options, offers
    exactly the wizard's catalog and preselects the fixed default pair,
    whatever was selected at setup. *)
Theorem X13_options_editor_offers_the_setup_catalog ui w title d opts lg :
  (async_step_sensors (Some ui) w).1 = Ok (CreateEntry title d) →
  dict_lookup CONF_MONITORED_CONDITIONS opts = None →
  (async_step_init None
     (mkWorld (async_get_options_flow (mkConfigEntry d opts)) lg)).1
  = Ok (ShowForm "init"
          (OptionsSchema (VList [VStr "power1_solar"; VStr "temp1"])
             (py_of_catalog (_filtered_sensor_types (self w))))
          None).
Proof.
  rewrite sensors_submit_cases.
  destruct (_info (self w)); try done.
  destruct (dict_lookup CONF_MONITORED_CONDITIONS ui); [|done].
  intros [= _ <-] Hopts.
  unfold async_step_init, async_get_options_flow, dict_get. run_monad.
  simpl. by rewrite Hopts.
Qed.


(** X15: the [sensors] step, with or without a submission and whether or not
    it raises, makes no request and leaves the recorded errors, the host and
    the catalog of the flow as they were; only the Device Info can change. *)
Theorem X15_sensors_step_touches_only_device_info user_input w :
  requests_log (async_step_sensors user_input w).2 = requests_log w
  ∧ _errors (self (async_step_sensors user_input w).2) = _errors (self w)
  ∧ _host (self (async_step_sensors user_input w).2) = _host (self w)
  ∧ _filtered_sensor_types (self (async_step_sensors user_input w).2)
    = _filtered_sensor_types (self w).
Proof.
  destruct user_input as [ui|].
  - rewrite sensors_submit_cases.
    destruct (_info (self w)); try done.
    by destruct (dict_lookup CONF_MONITORED_CONDITIONS ui).
  - by rewrite sensors_form_run.
Qed.

(** X16: the merge of a submission into the Device Info.  After a [sensors]
    submission on a Device Info that is a dict, the Device Info binds
    [device] and [number] to the submitted values, or to its previous ones
    where the submission has none ([None] where neither has), and keeps every
    other key as it was; this holds even when the step then raises for want
    of a selection. *)
Theorem X16_sensors_submission_merges_device_info ui info w :
  _info (self w) = VDict info →
  ∃ info',
    _info (self (async_step_sensors (Some ui) w).2) = VDict info'
    ∧ dict_lookup "device" info'
      = Some (default (default VNone (dict_lookup "device" info))
                (dict_lookup "device" ui))
    ∧ dict_lookup "number" info'
      = Some (default (default VNone (dict_lookup "number" info))
                (dict_lookup "number" ui))
    ∧ ∀ k, k ≠ "device" → k ≠ "number" →
           dict_lookup k info' = dict_lookup k info.
Proof.
  intros Hinfo. rewrite sensors_submit_cases, Hinfo.
  exists (merged_info ui info). split.
  { by destruct (dict_lookup CONF_MONITORED_CONDITIONS ui). }
  unfold merged_info, dict_get. split_and!.
  - rewrite dict_lookup_set_ne, dict_lookup_set_eq by done.
    by destruct (dict_lookup "device" ui), (dict_lookup "device" info).
  - rewrite dict_lookup_set_eq.
    by destruct (dict_lookup "number" ui), (dict_lookup "number" info).
  - intros k Hd Hn. by rewrite !dict_lookup_set_ne.
Qed.

End Flows.

(** ** The properties on the scenarios *)

Import Scenario.

Lemma C1_catalog_witness :
  (_get_sensors sample_SENSOR_TYPES healthy_device (VStr host) fresh).1 = Ok tt
  ∧ _filtered_sensor_types
      (self (_get_sensors sample_SENSOR_TYPES healthy_device (VStr host) fresh).2)
    = [("power1_solar", "Solar power 1"); ("temp1", "Temperature 1")]
  ∧ ∀ k, dict_lookup k
           (_filtered_sensor_types
              (self (_get_sensors sample_SENSOR_TYPES healthy_device
                       (VStr host) fresh).2))
         = if decide (k ∈ ["temp1"; "power1_solar"; "unrelated"])
           then fst <$> dict_lookup k sample_SENSOR_TYPES else None.
Proof.
  apply (C1_catalog_is_ordered_intersection sample_SENSOR_TYPES healthy_device
           (VStr host) fresh (mkResponse 200 (Some readings))
           [("temp1", VInt 45); ("power1_solar", VInt 1500);
            ("unrelated", VInt 0)]).
  - by apply (bool_decide_unpack _).
  - reflexivity.
  - simpl. lia.
  - reflexivity.
Defined.

Lemma C2_host_exists_witness :
  (async_step_user sample_SENSOR_TYPES one_entry healthy_device
     (Some host_input) fresh).1
  = Ok (ShowForm "user" (UserSchema (VStr host))
          (Some {[ "host" := "host_exists" ]}))
  ∧ _errors (self (async_step_user sample_SENSOR_TYPES one_entry
                     healthy_device (Some host_input) fresh).2) !! "host"
    = Some "host_exists"
  ∧ requests_log (async_step_user sample_SENSOR_TYPES one_entry
                    healthy_device (Some host_input) fresh).2 = [].
Proof.
  apply (C2_user_step_host_exists sample_SENSOR_TYPES one_entry healthy_device
           host_input host fresh).
  - reflexivity.
  - reflexivity.
  - constructor.
Defined.

(** C3, as stated, fails: a read timeout is a timeout of the probe, and a
    status of 600 is a status of at least 400, yet the first is filed as
    [unexpected_error] and the second is not an error at all (the flow goes on
    to the [sensors] form). *)
Lemma C3_timeout_or_status_counterexample :
  (async_step_user sample_SENSOR_TYPES no_entries
     (device_with (Failure ReadTimedOut) (ok readings))
     (Some host_input) fresh).1
  = Ok (ShowForm "user" (UserSchema (VStr host))
          (Some {[ "host" := "unexpected_error" ]}))
  ∧ (async_step_user sample_SENSOR_TYPES no_entries
       (device_with (Reply (mkResponse 600 (Some identity))) (ok readings))
       (Some host_input) fresh).1
    = Ok (ShowForm "sensors"
            (SensorsSchema ["power1_solar"; "temp1"]
               [("power1_solar", "Solar power 1"); ("temp1", "Temperature 1")])
            (Some ∅)).
Proof. split; reflexivity. Qed.

Lemma C3_could_not_connect_witness :
  (async_step_user sample_SENSOR_TYPES no_entries
     (device_with (Reply (mkResponse 503 None)) (ok readings))
     (Some host_input) fresh).1
  = Ok (ShowForm "user" (UserSchema (VStr host))
          (Some {[ "host" := "could_not_connect" ]}))
  ∧ requests_log
      (async_step_user sample_SENSOR_TYPES no_entries
         (device_with (Reply (mkResponse 503 None)) (ok readings))
         (Some host_input) fresh).2
    = ["http://192.168.1.50/mypv_dev.jsn"].
Proof.
  apply (C3_user_step_could_not_connect sample_SENSOR_TYPES no_entries
           (device_with (Reply (mkResponse 503 None)) (ok readings))
           host_input host fresh).
  - reflexivity.
  - reflexivity.
  - apply not_elem_of_nil.
  - right. exists (mkResponse 503 None). split; [reflexivity|simpl; lia].
Defined.

Lemma C4_fetch_failure_witness :
  (async_step_user sample_SENSOR_TYPES no_entries
     (device_with (ok identity) (Failure ConnectionFailed))
     (Some host_input) fresh).1
  = Ok (ShowForm "sensors" (SensorsSchema ["power1_solar"; "temp1"] [])
          (Some ∅))
  ∧ _filtered_sensor_types
      (self (async_step_user sample_SENSOR_TYPES no_entries
               (device_with (ok identity) (Failure ConnectionFailed))
               (Some host_input) fresh).2)
    = [].
Proof.
  apply (C4_sensor_fetch_failure_still_advances sample_SENSOR_TYPES no_entries
           (device_with (ok identity) (Failure ConnectionFailed))
           host_input host fresh identity ConnectionError).
  - reflexivity.
  - reflexivity.
  - apply not_elem_of_nil.
  - reflexivity.
  - reflexivity.
Defined.

(** C5, as stated, fails: with no entry yet and an empty catalog the form's
    default is still the whole pair, where the restriction to the catalog
    would leave nothing. *)
Lemma C5_default_not_restricted_counterexample :
  (async_step_user sample_SENSOR_TYPES no_entries
     (device_with (ok identity) (Failure ConnectionFailed))
     (Some host_input) fresh).1
  = Ok (ShowForm "sensors" (SensorsSchema ["power1_solar"; "temp1"] [])
          (Some ∅))
  ∧ spec_default_conditions (async_entries no_entries) [] = []
  ∧ ["power1_solar"; "temp1"]
    ≠ spec_default_conditions (async_entries no_entries) [].
Proof. split_and!; [reflexivity|reflexivity|discriminate]. Qed.

Lemma C6_entry_witness :
  (async_step_sensors no_entries (Some sensors_input)
     (async_step_user sample_SENSOR_TYPES no_entries healthy_device
        (Some host_input) fresh).2).1
  = Ok (CreateEntry "E3 - 7"
          [("host", VStr host);
           ("monitored_conditions", selection);
           ("_filtered_sensor_types",
            VDict [("power1_solar", VStr "Solar power 1");
                   ("temp1", VStr "Temperature 1")])]).
Proof.
  apply (C6_sensors_submission_creates_entry no_entries sensors_input selection
           [("device", VStr "E3"); ("number", VStr "7")]
           (async_step_user sample_SENSOR_TYPES no_entries healthy_device
              (Some host_input) fresh).2).
  - reflexivity.
  - reflexivity.
Defined.

(** C7, as stated, fails: for a host that is not configured, when [data.jsn]
    answers with a JSON array, both probes are made but [data.keys()] raises
    [AttributeError], which [_get_sensors] does not catch; the import raises
    it and never reaches the [sensors] step, which on the same input and the
    same world would have created an entry. *)
Lemma C7_non_object_body_counterexample :
  (async_step_import sample_SENSOR_TYPES no_entries
     (device_with (ok identity) (ok (VList []))) (Some import_input) fresh).1
  = Exc AttributeError
  ∧ requests_log
      (async_step_import sample_SENSOR_TYPES no_entries
         (device_with (ok identity) (ok (VList []))) (Some import_input)
         fresh).2
    = ["http://192.168.1.50/mypv_dev.jsn"; "http://192.168.1.50/data.jsn"]
  ∧ (async_step_sensors no_entries (Some import_input)
       (world_after_probes sample_SENSOR_TYPES
          (device_with (ok identity) (ok (VList []))) (VStr host) fresh)).1
    = Ok (CreateEntry "E3 - 7"
            [("host", VStr host);
             ("monitored_conditions", selection);
             ("_filtered_sensor_types", VDict [])]).
Proof. split_and!; reflexivity. Qed.

Lemma C7_import_witness :
  async_step_import sample_SENSOR_TYPES one_entry healthy_device
    (Some import_input) fresh
  = (Ok (Abort "host_exists"), fresh)
  ∧ async_step_import sample_SENSOR_TYPES no_entries healthy_device
      (Some import_input) fresh
    = async_step_sensors no_entries (Some import_input)
        (world_after_probes sample_SENSOR_TYPES healthy_device (VStr host)
           fresh)
  ∧ requests_log
      (world_after_probes sample_SENSOR_TYPES healthy_device (VStr host) fresh)
    = ["http://192.168.1.50/mypv_dev.jsn"; "http://192.168.1.50/data.jsn"].
Proof.
  split.
  - apply (C7_import_aborts_or_feeds_sensors sample_SENSOR_TYPES one_entry
             healthy_device import_input host fresh);
      [reflexivity|reflexivity|constructor].
  - apply (C7_import_aborts_or_feeds_sensors sample_SENSOR_TYPES no_entries
             healthy_device import_input host fresh);
      [reflexivity|reflexivity|apply not_elem_of_nil|reflexivity].
Defined.

Lemma C8_options_witness :
  async_step_init (Some [("monitored_conditions", VList [VStr "ctrlstate"])])
    (mkWorld (async_get_options_flow stored_entry) [])
  = (Ok (CreateEntry EmptyString
           [("monitored_conditions", VList [VStr "ctrlstate"])]),
     mkWorld (async_get_options_flow stored_entry) [])
  ∧ async_step_init None (mkWorld (async_get_options_flow stored_entry) [])
    = (Ok (ShowForm "init"
             (OptionsSchema (VList [VStr "temp1"])
                (VDict [("power1_solar", VStr "Solar power 1");
                        ("temp1", VStr "Temperature 1");
                        ("ctrlstate", VStr "Control state")]))
             None),
       mkWorld (async_get_options_flow stored_entry) []).
Proof.
  apply (C8_options_replaced_wholesale
           [("monitored_conditions", VList [VStr "ctrlstate"])]
           (VList [VStr "ctrlstate"]) stored_entry []).
  reflexivity.
Defined.




Lemma X1_unexpected_error_witness :
  (async_step_user sample_SENSOR_TYPES no_entries
     (device_with (Failure ReadTimedOut) (ok readings))
     (Some host_input) fresh).1
  = Ok (ShowForm "user" (UserSchema (VStr host))
          (Some {[ "host" := "unexpected_error" ]}))
  ∧ requests_log
      (async_step_user sample_SENSOR_TYPES no_entries
         (device_with (Failure ReadTimedOut) (ok readings))
         (Some host_input) fresh).2
    = ["http://192.168.1.50/mypv_dev.jsn"].
Proof.
  apply (X1_user_step_unexpected_error sample_SENSOR_TYPES no_entries
           (device_with (Failure ReadTimedOut) (ok readings))
           host_input host fresh).
  - reflexivity.
  - reflexivity.
  - apply not_elem_of_nil.
  - left. exists ReadTimedOut. split; [reflexivity|discriminate].
Defined.

Lemma X2_happy_path_witness :
  (async_step_user sample_SENSOR_TYPES no_entries healthy_device
     (Some host_input) fresh).1
  = Ok (ShowForm "sensors"
          (SensorsSchema ["power1_solar"; "temp1"]
             [("power1_solar", "Solar power 1"); ("temp1", "Temperature 1")])
          (Some ∅))
  ∧ _host (self (async_step_user sample_SENSOR_TYPES no_entries
                   healthy_device (Some host_input) fresh).2)
    = VStr host
  ∧ _info (self (async_step_user sample_SENSOR_TYPES no_entries
                   healthy_device (Some host_input) fresh).2)
    = identity
  ∧ requests_log (async_step_user sample_SENSOR_TYPES no_entries
                    healthy_device (Some host_input) fresh).2
    = ["http://192.168.1.50/mypv_dev.jsn"; "http://192.168.1.50/data.jsn"].
Proof.
  apply (X2_user_step_happy_path sample_SENSOR_TYPES no_entries healthy_device
           host_input host fresh identity
           [("temp1", VInt 45); ("power1_solar", VInt 1500);
            ("unrelated", VInt 0)]).
  - by apply (bool_decide_unpack _).
  - reflexivity.
  - reflexivity.
  - apply not_elem_of_nil.
  - reflexivity.
  - reflexivity.
Defined.

Lemma X3_stale_error_witness :
  ∃ dflt cat,
    (async_step_user sample_SENSOR_TYPES no_entries healthy_device
       (Some host_input)
       (async_step_user sample_SENSOR_TYPES no_entries healthy_device
          (Some other_host_input) fresh).2).1
    = Ok (ShowForm "sensors" (SensorsSchema dflt cat)
            (Some {[ "host" := "unexpected_error" ]})).
Proof.
  apply (X3_errors_survive_a_successful_retry sample_SENSOR_TYPES no_entries
           healthy_device other_host_input "192.168.1.51" ConnectionError
           host_input host identity fresh).
  - reflexivity.
  - reflexivity.
  - apply not_elem_of_nil.
  - reflexivity.
  - reflexivity.
  - apply not_elem_of_nil.
  - reflexivity.
  - reflexivity.
Defined.

Lemma X4_non_object_body_witness :
  _get_sensors sample_SENSOR_TYPES (device_with (ok identity) (ok (VList [])))
    (VStr host) fresh
  = (Exc AttributeError,
     mkWorld ConfigFlow_init ["http://192.168.1.50/data.jsn"]).
Proof.
  apply (X4_get_sensors_non_object_body sample_SENSOR_TYPES
           (device_with (ok identity) (ok (VList []))) (VStr host) fresh
           (mkResponse 200 (Some (VList []))) (VList [])).
  - reflexivity.
  - simpl. lia.
  - reflexivity.
  - reflexivity.
Defined.

Lemma X5_catalog_keys_witness :
  NoDup ((_filtered_sensor_types
            (self (_get_sensors sample_SENSOR_TYPES healthy_device
                     (VStr host) fresh).2)).*1)
  ∧ ∀ k, k ∈ (_filtered_sensor_types
                (self (_get_sensors sample_SENSOR_TYPES healthy_device
                         (VStr host) fresh).2)).*1
         ↔ k ∈ sample_SENSOR_TYPES.*1
           ∧ ∃ d, fetch_outcome (healthy_device (data_url (VStr host)))
                  = Ok (VDict d)
                  ∧ k ∈ d.*1.
Proof.
  apply (X5_catalog_keys_for_any_table sample_SENSOR_TYPES healthy_device
           (VStr host) fresh).
  reflexivity.
Defined.

Lemma X6_host_exists_witness :
  ∃ b, _host_in_configuration_exists one_entry (VStr host) fresh
       = (Ok b, fresh)
       ∧ (b = true
          ↔ ∃ entry, entry ∈ async_entries one_entry
                     ∧ dict_lookup "host" (data entry) = Some (VStr host)).
Proof. apply (X6_host_exists_iff_stored one_entry host fresh). reflexivity. Defined.

Lemma X7_only_forms_witness :
  ∃ schema errs,
    ShowForm "sensors"
      (SensorsSchema ["power1_solar"; "temp1"]
         [("power1_solar", "Solar power 1"); ("temp1", "Temperature 1")])
      (Some ∅)
    = ShowForm "user" schema errs
    ∨ ShowForm "sensors"
        (SensorsSchema ["power1_solar"; "temp1"]
           [("power1_solar", "Solar power 1"); ("temp1", "Temperature 1")])
        (Some ∅)
      = ShowForm "sensors" schema errs.
Proof.
  apply (X7_user_step_only_displays_forms sample_SENSOR_TYPES no_entries
           healthy_device (Some host_input) fresh).
  reflexivity.
Defined.

Lemma X8_import_result_witness :
  CreateEntry "E3 - 7" created_data = Abort "host_exists"
  ∨ ∃ title d, CreateEntry "E3 - 7" created_data = CreateEntry title d.
Proof.
  apply (X8_import_never_displays_a_form sample_SENSOR_TYPES no_entries
           healthy_device (Some import_input) fresh).
  reflexivity.
Defined.

Lemma X9_escaping_exception_witness :
  isinstance_RequestException AttributeError = false.
Proof.
  apply (X9_request_exceptions_never_escape sample_SENSOR_TYPES no_entries
           (device_with (ok identity) (ok (VList []))) (Some host_input)
           fresh).
  left. reflexivity.
Defined.

Lemma X12_import_title_witness :
  (async_step_import sample_SENSOR_TYPES no_entries healthy_device
     (Some import_input) fresh).1
  = Ok (CreateEntry "E3 - 7" created_data).
Proof.
  apply (X12_import_titles_from_device_info sample_SENSOR_TYPES no_entries
           healthy_device import_input host selection
           [("device", VStr "E3"); ("number", VStr "7")] fresh).
  - reflexivity.
  - reflexivity.
  - apply not_elem_of_nil.
  - reflexivity.
  - reflexivity.
  - reflexivity.
Defined.

Lemma X13_options_after_setup_witness :
  (async_step_init None
     (mkWorld (async_get_options_flow (mkConfigEntry created_data [])) [])).1
  = Ok (ShowForm "init"
          (OptionsSchema (VList [VStr "power1_solar"; VStr "temp1"])
             (VDict [("power1_solar", VStr "Solar power 1");
                     ("temp1", VStr "Temperature 1")]))
          None).
Proof.
  apply (X13_options_editor_offers_the_setup_catalog no_entries sensors_input
           (async_step_user sample_SENSOR_TYPES no_entries healthy_device
              (Some host_input) fresh).2
           "E3 - 7" created_data [] []).
  - reflexivity.
  - reflexivity.
Defined.


Lemma X16_merge_witness :
  ∃ info',
    _info (self (async_step_sensors no_entries
                   (Some [("device", VStr "Heater")])
                   (mkWorld (with_info identity ConfigFlow_init) [])).2)
    = VDict info'
    ∧ dict_lookup "device" info' = Some (VStr "Heater")
    ∧ dict_lookup "number" info' = Some (VStr "7")
    ∧ ∀ k, k ≠ "device" → k ≠ "number" →
           dict_lookup k info'
           = dict_lookup k [("device", VStr "E3"); ("number", VStr "7")].
Proof.
  apply (X16_sensors_submission_merges_device_info no_entries
           [("device", VStr "Heater")]
           [("device", VStr "E3"); ("number", VStr "7")]
           (mkWorld (with_info identity ConfigFlow_init) [])).
  reflexivity.
Defined.
